(** * ACP kernel (kernel-py/acp)

    A shallow embedding of the three Python modules of the kernel:

    - [acp/types.py]  : the envelopes and the error-code list,
    - [acp/router.py] : the router factory [create_manage_router],
    - [acp/usage.py]  : the usage governor ([UsageResponse],
                        [UpgradeRequiredError], [enforce_usage_limit]).

    Python integers are [Z], Python [str] is [string], a dict literal is an
    association list in insertion order, and a function that may raise
    returns an [outcome].  The calls the governor makes on objects it does
    not own (the attribute inspection of the control plane, the backend
    query, the log line on standard output) are recorded, in order, in a
    list of [event]s next to the outcome.  What the function reads from
    its surroundings is an argument: the clock ([now]) and the standard
    output ([stdout], which may refuse a line). *)

From Stdlib Require Import ZArith String List Bool Lia DecimalString.
Import ListNotations.

Local Open Scope string_scope.
Local Open Scope Z_scope.

(** ** Python values *)

(** The values that flow through [Dict[str, Any]] in these modules. *)
#[warnings="-register-all"]
Inductive pyval : Type :=
| PNone
| PBool (b : bool)
| PInt (z : Z)
| PStr (s : string)
| PList (l : list pyval)
| PDict (d : list (string * pyval)).

(** A Python dict with string keys, in insertion order. *)
Definition dict : Type := list (string * pyval).

(** [d.get(k)]: the value bound to the first occurrence of [k]. *)
Fixpoint dict_get (k : string) (d : dict) : option pyval :=
  match d with
  | [] => None
  | (k', v) :: d' => if String.eqb k k' then Some v else dict_get k d'
  end.

(** [str(n)] for an [int]. *)
Definition str_int (z : Z) : string := NilZero.string_of_int (Z.to_int z).

(** [bool(s)] for a [str]: only the empty string is falsy. *)
Definition truthy_str (s : string) : bool :=
  match s with
  | EmptyString => false
  | String _ _ => true
  end.

(** ** [datetime] (aware, UTC) *)

Record datetime : Type := mkDatetime {
  year : Z;
  month : Z;
  day : Z;
  hour : Z;
  minute : Z;
  second : Z;
  microsecond : Z
}.

(** [now.replace(day=1, hour=0, minute=0, second=0, microsecond=0)] *)
Definition replace_month_start (now : datetime) : datetime :=
  {| year := year now; month := month now; day := 1;
     hour := 0; minute := 0; second := 0; microsecond := 0 |}.

Fixpoint zeros (n : nat) : string :=
  match n with
  | O => ""
  | S n' => "0" ++ zeros n'
  end.

(** [str(n).zfill(w)] for a non-negative [n]. *)
Definition zfill (w : nat) (z : Z) : string :=
  let s := str_int z in
  zeros (w - String.length s) ++ s.

(** [d.isoformat()] of a datetime whose tzinfo is [timezone.utc]: the
    fraction is printed only when [microsecond] is not zero. *)
Definition isoformat (d : datetime) : string :=
  zfill 4 (year d) ++ "-" ++ zfill 2 (month d) ++ "-" ++ zfill 2 (day d)
  ++ "T" ++ zfill 2 (hour d) ++ ":" ++ zfill 2 (minute d) ++ ":"
  ++ zfill 2 (second d)
  ++ (if microsecond d =? 0 then "" else "." ++ zfill 6 (microsecond d))
  ++ "+00:00".

(** ** [acp/usage.py]: [UsageResponse] *)

(** The dataclass.  [calls_remaining] is [Optional[int]] with default
    [None]. *)
Record UsageResponse : Type := mkUsageResponse {
  tenant_id : string;
  tier : string;
  calls_used : Z;
  calls_limit : Z;
  period_start : string;
  period_end : string;
  calls_remaining : option Z
}.

(** [UsageResponse.__post_init__]: derive [calls_remaining] only when the
    caller left it [None]. *)
Definition __post_init__ (self : UsageResponse) : UsageResponse :=
  match calls_remaining self with
  | None =>
      {| tenant_id := tenant_id self;
         tier := tier self;
         calls_used := calls_used self;
         calls_limit := calls_limit self;
         period_start := period_start self;
         period_end := period_end self;
         calls_remaining :=
           Some (Z.max 0 (calls_limit self - calls_used self)) |}
  | Some _ => self
  end.

(** [UsageResponse(tenant_id, tier, calls_used, calls_limit, period_start,
    period_end, calls_remaining=None)]: the generated [__init__] stores the
    fields and then runs [__post_init__]. *)
Definition UsageResponse_init
    (tenant_id tier : string) (calls_used calls_limit : Z)
    (period_start period_end : string) (calls_remaining : option Z)
  : UsageResponse :=
  __post_init__
    (mkUsageResponse tenant_id tier calls_used calls_limit
                     period_start period_end calls_remaining).

(** ** Exceptions and outcomes *)

(** What a call can raise.  [UpgradeRequiredError] and
    [NotImplementedError] are the two the kernel raises itself;
    [OtherException cls s] stands for an instance of any other subclass of
    [Exception] (class name, [str(e)]); [UnprintableException cls e'] for
    an instance of a subclass of [Exception] whose [__str__] raises [e'];
    [SystemExiting cls s] for a [BaseException] outside [Exception]
    ([KeyboardInterrupt], [SystemExit], [GeneratorExit]), which
    [except Exception] lets through. *)
Inductive exn : Type :=
| UpgradeRequiredError (message : string) (usage : UsageResponse)
                       (upgrade_url : string)
| NotImplementedError (message : string)
| OtherException (cls : string) (message : string)
| UnprintableException (cls : string) (raised : exn)
| SystemExiting (cls : string) (message : string).

(** [isinstance(e, Exception)] *)
Definition isinstance_Exception (e : exn) : bool :=
  match e with
  | SystemExiting _ _ => false
  | _ => true
  end.

(** [isinstance(e, UpgradeRequiredError)] *)
Definition isinstance_UpgradeRequiredError (e : exn) : bool :=
  match e with
  | UpgradeRequiredError _ _ _ => true
  | _ => false
  end.

Inductive outcome (A : Type) : Type :=
| Returns (a : A)
| Raises (e : exn).

Arguments Returns {A} a.
Arguments Raises {A} e.

(** [str(e)], which is what the f-string field [{e}] evaluates: the
    argument given to [Exception.__init__]
    ([UpgradeRequiredError.__init__] passes [self.message]), or whatever
    an overridden [__str__] raises. *)
Definition str_exn (e : exn) : outcome string :=
  match e with
  | UpgradeRequiredError m _ _ => Returns m
  | NotImplementedError m => Returns m
  | OtherException _ m => Returns m
  | UnprintableException _ e' => Raises e'
  | SystemExiting _ m => Returns m
  end.

(** ** Effects of the governor *)

Inductive event : Type :=
| EvHasattr (name : string)
    (* hasattr(control_plane, name) *)
| EvGetUsage (tenant_id period_start period_end : string)
    (* control_plane.get_usage(tenant_id=.., period_start=.., period_end=..) *)
| EvPrint (line : string).
    (* print(line) *)

(** A computation: its outcome and the events it performed, oldest first. *)
Definition M (A : Type) : Type := outcome A * list event.

Definition ret {A : Type} (a : A) : M A := (Returns a, []).

Definition raise {A : Type} (e : exn) : M A := (Raises e, []).

Definition emit (ev : event) : M unit := (Returns tt, [ev]).

(** A call that performs no event of its own. *)
Definition lift {A : Type} (o : outcome A) : M A := (o, []).

Definition bind {A B : Type} (m : M A) (k : A -> M B) : M B :=
  match m with
  | (Returns a, t) => let (r, t') := k a in (r, (t ++ t')%list)
  | (Raises e, t) => (Raises e, t)
  end.

(** [try: m  except ... as e: handler e] *)
Definition try_except {A : Type} (m : M A) (handler : exn -> M A) : M A :=
  match m with
  | (Returns a, t) => (Returns a, t)
  | (Raises e, t) => let (r, t') := handler e in (r, (t ++ t')%list)
  end.

Notation "x <- c ;; k" := (bind c (fun x => k))
  (at level 61, c at next level, right associativity).
Notation "c ;; k" := (bind c (fun _ => k))
  (at level 61, right associativity).

(** The outcome and the events of a computation. *)
Definition result {A : Type} (m : M A) : outcome A := fst m.
Definition trace {A : Type} (m : M A) : list event := snd m.

(** ** [acp/types.py] *)

Module Types.

(** Request and response envelopes are plain dicts. *)
Definition ManageRequest : Type := dict.
Definition ManageResponse : Type := dict.

Definition ERROR_CODES : list string :=
  [ "VALIDATION_ERROR";
    "INVALID_API_KEY";
    "SCOPE_DENIED";
    "NOT_FOUND";
    "RATE_LIMITED";
    "CEILING_EXCEEDED";
    "IDEMPOTENT_REPLAY";
    "INTERNAL_ERROR" ].

(** [c in ERROR_CODES] *)
Definition is_error_code (c : string) : bool :=
  existsb (String.eqb c) ERROR_CODES.

End Types.

(** ** [acp/router.py] *)

Module Router.

(** A router function: [(request, meta) -> response]. *)
Definition router : Type :=
  Types.ManageRequest -> dict -> Types.ManageResponse.

(** The body is the single [raise NotImplementedError(...)]. *)
Definition create_manage_router
    (db_adapter audit_adapter idempotency_adapter : pyval)
    (rate_limit_adapter ceilings_adapter : pyval)
    (bindings : dict) (packs : list pyval) : outcome router :=
  Raises (NotImplementedError
    "kernel-py is a skeleton. Implement router to pass spec conformance tests.").

End Router.

(** ** [acp/usage.py]: the governor *)

Module Usage.

(** The control-plane adapter as the governor sees it ([control_plane:
    Any]): whether the object is truthy, and its [get_usage] attribute when
    it has one.  The record describes control planes that keep the
    adapter's contract, [get_usage(tenant_id, period_start, period_end) ->
    UsageResponse]: the attribute, when present, is a method, and a call
    of it returns a [UsageResponse] or raises. *)
Record adapter : Type := mkAdapter {
  cp_truthy : bool;
  get_usage : option (string -> string -> string -> outcome UsageResponse)
}.

(** [None] is Python's [None]: no control plane configured. *)
Definition control_plane : Type := option adapter.

(** [bool(control_plane)] *)
Definition truthy_cp (cp : control_plane) : bool :=
  match cp with
  | None => false
  | Some a => cp_truthy a
  end.

(** [hasattr(control_plane, 'get_usage')] *)
Definition hasattr_get_usage (cp : control_plane) : M bool :=
  emit (EvHasattr "get_usage") ;;
  ret (match cp with
       | Some a => match get_usage a with Some _ => true | None => false end
       | None => false
       end).

(** [control_plane.get_usage(tenant_id=.., period_start=.., period_end=..)];
    looking the attribute up on an object that lacks it raises
    [AttributeError]. *)
Definition call_get_usage (cp : control_plane)
    (tenant_id period_start period_end : string) : M UsageResponse :=
  match cp with
  | Some a =>
      match get_usage a with
      | Some f =>
          emit (EvGetUsage tenant_id period_start period_end) ;;
          (f tenant_id period_start period_end, [])
      | None => raise (OtherException "AttributeError" "get_usage")
      end
  | None => raise (OtherException "AttributeError" "get_usage")
  end.

(** [sys.stdout] as [print] uses it: writing a line succeeds or raises
    (a closed or broken stream, a character the encoding lacks). *)
Definition stream : Type := string -> outcome unit.

(** [print(line)] *)
Definition print (stdout : stream) (line : string) : M unit :=
  emit (EvPrint line) ;;
  lift (stdout line).

Definition default_free_tier_limit : Z := 100.
Definition default_warning_threshold : Z := 90.

(** [f"/api/upgrade/checkout?tenant={tenant_uuid}"] *)
Definition checkout_url (tenant_uuid : string) : string :=
  "/api/upgrade/checkout?tenant=" ++ tenant_uuid.

(** [enforce_usage_limit].  [stdout] is the stream [print] writes to and
    [now] is what [datetime.now(timezone.utc)] reads; the result is [None]
    or the warning dict, or a raise. *)
Definition enforce_usage_limit
    (stdout : stream)
    (now : datetime)
    (tenant_uuid action : string)
    (control_plane : control_plane)
    (bindings : dict)
    (free_tier_limit warning_threshold : Z) : M (option dict) :=
  if negb (truthy_str tenant_uuid) || negb (truthy_cp control_plane) then
    ret None
  else
    has <- hasattr_get_usage control_plane ;;
    if negb has then
      ret None
    else
      try_except
        (let period_start := isoformat (replace_month_start now) in
         let period_end := isoformat now in
         usage <- call_get_usage control_plane
                    tenant_uuid period_start period_end ;;
         if (tier usage =? "free")%string
            && (calls_used usage >=? calls_limit usage) then
           let upgrade_url := checkout_url tenant_uuid in
           raise (UpgradeRequiredError
                    ("Free tier limit reached ("
                       ++ str_int (calls_limit usage)
                       ++ " calls). Add a payment method to continue.")
                    usage
                    upgrade_url)
         else if (tier usage =? "free")%string
                 && (calls_used usage >=? warning_threshold) then
           let calls_remaining := calls_limit usage - calls_used usage in
           let upgrade_url := checkout_url tenant_uuid in
           ret (Some
             [ ("message",
                PStr ("You have " ++ str_int calls_remaining
                        ++ " free calls remaining. Add a payment method to continue after "
                        ++ str_int (calls_limit usage) ++ " calls."));
               ("upgrade_url", PStr upgrade_url);
               ("usage",
                PDict [ ("calls_used", PInt (calls_used usage));
                        ("calls_limit", PInt (calls_limit usage));
                        ("calls_remaining", PInt calls_remaining);
                        ("tier", PStr (tier usage)) ]) ])
         else
           ret None)
        (fun e =>
           if isinstance_UpgradeRequiredError e then
             raise e
           else if isinstance_Exception e then
             s <- lift (str_exn e) ;;
             print stdout ("[USAGE] Usage check failed: " ++ s
                             ++ ", allowing request to proceed") ;;
             ret None
           else
             raise e).

End Usage.

(** ** Sample inputs *)

Module Samples.

Definition now0 : datetime := mkDatetime 2026 11 3 19 10 42 0.

(** A standard output that takes every line, and one that is closed. *)
Definition stdout0 : Usage.stream := fun _ => Returns tt.

Definition closed_stdout : Usage.stream :=
  fun _ => Raises (OtherException "ValueError"
                     "I/O operation on closed file.").

Definition usage_of (t : string) (used lim : Z) (tenant ps pe : string)
  : UsageResponse :=
  UsageResponse_init tenant t used lim ps pe None.

(** A [get_usage] that answers every query with the given tier and
    counts, and a backend that has it. *)
Definition answer (t : string) (used lim : Z)
  : string -> string -> string -> outcome UsageResponse :=
  fun tenant ps pe => Returns (usage_of t used lim tenant ps pe).

Definition backend (t : string) (used lim : Z) : Usage.adapter :=
  Usage.mkAdapter true (Some (answer t used lim)).

(** A [get_usage] that always raises [e], and a backend that has it. *)
Definition failure (e : exn)
  : string -> string -> string -> outcome UsageResponse :=
  fun _ _ _ => Raises e.

Definition failing_backend (e : exn) : Usage.adapter :=
  Usage.mkAdapter true (Some (failure e)).

Definition timeout : exn := OtherException "TimeoutError" "timed out".

(** An [UpgradeRequiredError] of the backend's own making. *)
Definition backend_upgrade : exn :=
  UpgradeRequiredError "quota exceeded upstream"
    (mkUsageResponse "t1" "free" 7 100 "" "" (Some 93))
    "https://billing.example/upgrade".

(** The period of a query made at [now0]. *)
Definition ps0 : string := "2026-11-01T00:00:00+00:00".
Definition pe0 : string := "2026-11-03T19:10:42+00:00".

(** A control plane with no usage capability. *)
Definition no_usage_backend : Usage.adapter := Usage.mkAdapter true None.

End Samples.


(** * Properties *)

(** ** The four paths of [enforce_usage_limit] *)

Section Paths.

Variable stdout : Usage.stream.
Variable now : datetime.
Variables tenant_uuid action : string.
Variable bindings : dict.
Variables free_tier_limit warning_threshold : Z.

Let ps : string := isoformat (replace_month_start now).
Let pe : string := isoformat now.

(** Line 80: no tenant or no (truthy) control plane. *)
Lemma enforce_skips (cp : Usage.control_plane) :
  truthy_str tenant_uuid = false \/ Usage.truthy_cp cp = false ->
  Usage.enforce_usage_limit stdout now tenant_uuid action cp bindings
    free_tier_limit warning_threshold = (Returns None, []).
Proof.
  intros [H | H]; unfold Usage.enforce_usage_limit; rewrite H.
  - reflexivity.
  - now rewrite orb_true_r.
Qed.

(** Line 84: a control plane without the [get_usage] attribute. *)
Lemma enforce_no_capability (a : Usage.adapter) :
  truthy_str tenant_uuid = true ->
  Usage.cp_truthy a = true ->
  Usage.get_usage a = None ->
  Usage.enforce_usage_limit stdout now tenant_uuid action (Some a) bindings
    free_tier_limit warning_threshold
  = (Returns None, [EvHasattr "get_usage"]).
Proof.
  intros Ht Ha Hg. unfold Usage.enforce_usage_limit, Usage.hasattr_get_usage.
  cbn [Usage.truthy_cp]. rewrite Ht, Ha, Hg. reflexivity.
Qed.

(** Lines 93-124: the query returned [u]. *)
Lemma enforce_query_returns (a : Usage.adapter) f (u : UsageResponse) :
  truthy_str tenant_uuid = true ->
  Usage.cp_truthy a = true ->
  Usage.get_usage a = Some f ->
  f tenant_uuid ps pe = Returns u ->
  Usage.enforce_usage_limit stdout now tenant_uuid action (Some a) bindings
    free_tier_limit warning_threshold
  = (if (tier u =? "free")%string && (calls_used u >=? calls_limit u) then
       Raises (UpgradeRequiredError
                 ("Free tier limit reached (" ++ str_int (calls_limit u)
                    ++ " calls). Add a payment method to continue.")
                 u (Usage.checkout_url tenant_uuid))
     else if (tier u =? "free")%string
             && (calls_used u >=? warning_threshold) then
       Returns (Some
         [ ("message",
            PStr ("You have " ++ str_int (calls_limit u - calls_used u)
                    ++ " free calls remaining. Add a payment method to continue after "
                    ++ str_int (calls_limit u) ++ " calls."));
           ("upgrade_url", PStr (Usage.checkout_url tenant_uuid));
           ("usage",
            PDict [ ("calls_used", PInt (calls_used u));
                    ("calls_limit", PInt (calls_limit u));
                    ("calls_remaining", PInt (calls_limit u - calls_used u));
                    ("tier", PStr (tier u)) ]) ])
     else Returns None,
     [EvHasattr "get_usage"; EvGetUsage tenant_uuid ps pe]).
Proof.
  intros Ht Ha Hg Hf.
  unfold Usage.enforce_usage_limit, Usage.hasattr_get_usage,
    Usage.call_get_usage.
  cbn [Usage.truthy_cp]. rewrite Ht, Ha, Hg. cbn [negb orb].
  fold ps pe. unfold bind, emit, ret, try_except. cbn [negb app].
  rewrite Hf.
  destruct ((tier u =? "free")%string && (calls_used u >=? calls_limit u)).
  - reflexivity.
  - destruct ((tier u =? "free")%string
              && (calls_used u >=? warning_threshold)); reflexivity.
Qed.

(** Lines 125-130: the query raised [e]. *)
Lemma enforce_query_raises (a : Usage.adapter) f (e : exn) :
  truthy_str tenant_uuid = true ->
  Usage.cp_truthy a = true ->
  Usage.get_usage a = Some f ->
  f tenant_uuid ps pe = Raises e ->
  Usage.enforce_usage_limit stdout now tenant_uuid action (Some a) bindings
    free_tier_limit warning_threshold
  = if isinstance_UpgradeRequiredError e then
      (Raises e, [EvHasattr "get_usage"; EvGetUsage tenant_uuid ps pe])
    else if isinstance_Exception e then
      match str_exn e with
      | Returns s =>
          (match stdout ("[USAGE] Usage check failed: " ++ s
                           ++ ", allowing request to proceed") with
           | Returns _ => Returns None
           | Raises e' => Raises e'
           end,
           [EvHasattr "get_usage"; EvGetUsage tenant_uuid ps pe;
            EvPrint ("[USAGE] Usage check failed: " ++ s
                       ++ ", allowing request to proceed")])
      | Raises e' =>
          (Raises e',
           [EvHasattr "get_usage"; EvGetUsage tenant_uuid ps pe])
      end
    else
      (Raises e, [EvHasattr "get_usage"; EvGetUsage tenant_uuid ps pe]).
Proof.
  intros Ht Ha Hg Hf.
  unfold Usage.enforce_usage_limit, Usage.hasattr_get_usage,
    Usage.call_get_usage.
  cbn [Usage.truthy_cp]. rewrite Ht, Ha, Hg. cbn [negb orb].
  fold ps pe.
  unfold Usage.print, bind, emit, ret, lift, try_except. cbn [negb app].
  rewrite Hf.
  destruct (isinstance_UpgradeRequiredError e); [reflexivity |].
  destruct (isinstance_Exception e); [| reflexivity].
  destruct (str_exn e) as [s | e']; [| reflexivity].
  destruct (stdout ("[USAGE] Usage check failed: " ++ s
                      ++ ", allowing request to proceed"));
    reflexivity.
Qed.

End Paths.

Lemma truthy_str_nonempty (s : string) : s <> "" -> truthy_str s = true.
Proof. destruct s; [congruence | reflexivity]. Qed.

(** Splits the handlers of [enforce_query_raises]: which [except] clause
    matches, whether [str(e)] raises, whether the print does. *)
Ltac handler_cases :=
  repeat match goal with
    | |- context [if ?b then _ else _] => destruct b
    | H : context [if ?b then _ else _] |- _ => destruct b
    | |- context [match str_exn ?e with _ => _ end] => destruct (str_exn e)
    | H : context [match str_exn ?e with _ => _ end] |- _ =>
        destruct (str_exn e)
    | |- context [match ?o with Returns _ => _ | Raises _ => _ end] =>
        destruct o
    | H : context [match ?o with Returns _ => _ | Raises _ => _ end] |- _ =>
        destruct o
    end.

(** ** [acp/types.py]: the error-code list *)

Lemma is_error_code_In (c : string) :
  Types.is_error_code c = true <-> In c Types.ERROR_CODES.
Proof.
  unfold Types.is_error_code. rewrite existsb_exists. split.
  - intros [x [Hin Heq]]. apply String.eqb_eq in Heq. now subst.
  - intros Hin. exists c. split; [assumption | apply String.eqb_refl].
Qed.

(** C1: the members of [ERROR_CODES] are the eight codes the list
    literal names; ["UPGRADE_REQUIRED"], the code the usage governor's
    block answers with, is not one of them. *)
Theorem ERROR_CODES_lacks_UPGRADE_REQUIRED :
  Types.is_error_code "UPGRADE_REQUIRED" = false
  /\ forall c : string,
       In c Types.ERROR_CODES <->
       (c = "VALIDATION_ERROR" \/ c = "INVALID_API_KEY"
        \/ c = "SCOPE_DENIED" \/ c = "NOT_FOUND" \/ c = "RATE_LIMITED"
        \/ c = "CEILING_EXCEEDED" \/ c = "IDEMPOTENT_REPLAY"
        \/ c = "INTERNAL_ERROR").
Proof.
  split; [reflexivity |].
  intros c. unfold Types.ERROR_CODES. cbn [In]. split.
  - intros H; repeat (destruct H as [H | H]; [subst c; tauto |]).
    contradiction.
  - intros H; repeat (destruct H as [H | H]; [subst c; tauto |]).
    subst c; tauto.
Qed.

(** ** [acp/router.py]: the router factory *)

(** C2: whatever adapters, bindings and packs it is given,
    [create_manage_router] raises [NotImplementedError]; it never returns a
    router function. *)
Theorem create_manage_router_raises
    (db_adapter audit_adapter idempotency_adapter : pyval)
    (rate_limit_adapter ceilings_adapter : pyval)
    (bindings : dict) (packs : list pyval) :
  Router.create_manage_router db_adapter audit_adapter idempotency_adapter
    rate_limit_adapter ceilings_adapter bindings packs
  = Raises (NotImplementedError
      "kernel-py is a skeleton. Implement router to pass spec conformance tests.")
  /\ forall r : Router.router,
       Router.create_manage_router db_adapter audit_adapter
         idempotency_adapter rate_limit_adapter ceilings_adapter
         bindings packs <> Returns r.
Proof.
  split; [reflexivity | intros r; discriminate].
Qed.

(** ** [UsageResponse] *)

Lemma post_init_keeps_counts (self : UsageResponse) :
  calls_used (__post_init__ self) = calls_used self
  /\ calls_limit (__post_init__ self) = calls_limit self
  /\ tier (__post_init__ self) = tier self.
Proof.
  unfold __post_init__. destruct (calls_remaining self); repeat split.
Qed.

(** C6, as stated, fails: a [UsageResponse] built with an explicit
    [calls_remaining] keeps that value, here [-3] next to
    [calls_limit - calls_used = 5]. *)
Lemma UsageResponse_explicit_remaining_kept :
  calls_remaining (UsageResponse_init "t1" "free" 95 100 "p0" "p1" (Some (-3)))
  = Some (-3)
  /\ Some (-3) <> Some (Z.max 0 (100 - 95))
  /\ -3 < 0.
Proof.
  split; [reflexivity | split; [discriminate | lia]].
Qed.

(** C6 (amended): a [UsageResponse] built without an explicit
    [calls_remaining] has [calls_remaining = max(0, calls_limit -
    calls_used)], which is never negative; one built with an explicit
    value keeps the value it was given. *)
Theorem UsageResponse_init_calls_remaining
    (tenant t : string) (used lim : Z) (p0 p1 : string) :
  let u := UsageResponse_init tenant t used lim p0 p1 None in
  calls_remaining u = Some (Z.max 0 (calls_limit u - calls_used u))
  /\ calls_limit u = lim /\ calls_used u = used
  /\ (exists r, calls_remaining u = Some r /\ 0 <= r)
  /\ forall cr : Z,
       calls_remaining (UsageResponse_init tenant t used lim p0 p1 (Some cr))
       = Some cr.
Proof.
  cbn. repeat split.
  - exists (Z.max 0 (lim - used)). split; [reflexivity | lia].
Qed.

(** ** The governor without a backend *)

(** C7: with no control plane, or one that has no [get_usage], the
    governor returns [None]; it does not raise, does not call the backend
    and logs nothing, whatever the tenant and the action. *)
Theorem enforce_usage_limit_noop_without_backend
    (stdout : Usage.stream) (now : datetime) (tenant_uuid action : string)
    (cp : Usage.control_plane) (bindings : dict)
    (free_tier_limit warning_threshold : Z) :
  cp = None \/ (exists a, cp = Some a /\ Usage.get_usage a = None) ->
  result (Usage.enforce_usage_limit stdout now tenant_uuid action cp bindings
            free_tier_limit warning_threshold) = Returns None
  /\ (forall t p0 p1,
        ~ In (EvGetUsage t p0 p1)
             (trace (Usage.enforce_usage_limit stdout now tenant_uuid action cp
                       bindings free_tier_limit warning_threshold)))
  /\ (forall line,
        ~ In (EvPrint line)
             (trace (Usage.enforce_usage_limit stdout now tenant_uuid action cp
                       bindings free_tier_limit warning_threshold))).
Proof.
  intros H.
  assert (Hcases :
    Usage.enforce_usage_limit stdout now tenant_uuid action cp bindings
      free_tier_limit warning_threshold = (Returns None, [])
    \/ Usage.enforce_usage_limit stdout now tenant_uuid action cp bindings
         free_tier_limit warning_threshold
       = (Returns None, [EvHasattr "get_usage"])).
  { destruct H as [-> | [a [-> Hg]]].
    - left. apply enforce_skips. now right.
    - destruct (truthy_str tenant_uuid) eqn:Ht.
      + destruct (Usage.cp_truthy a) eqn:Ha.
        * right. now apply enforce_no_capability.
        * left. apply enforce_skips. now right.
      + left. apply enforce_skips. now left. }
  destruct Hcases as [-> | ->]; unfold result, trace; cbn [fst snd In];
    repeat split; intros; intuition discriminate.
Qed.

Lemma enforce_usage_limit_noop_without_backend_witness :
  (Some Samples.no_usage_backend = None
   \/ (exists a, Some Samples.no_usage_backend = Some a
                 /\ Usage.get_usage a = None))
  /\ result (Usage.enforce_usage_limit Samples.stdout0 Samples.now0 "t1" "create"
               (Some Samples.no_usage_backend) [] 100 90) = Returns None.
Proof.
  assert (H : Some Samples.no_usage_backend = None
              \/ (exists a, Some Samples.no_usage_backend = Some a
                            /\ Usage.get_usage a = None)).
  { right. exists Samples.no_usage_backend. split; reflexivity. }
  split; [exact H |].
  exact (proj1 (enforce_usage_limit_noop_without_backend
                  Samples.stdout0 Samples.now0 "t1" "create" (Some Samples.no_usage_backend)
                  [] 100 90 H)).
Defined.

(** ** The governor with a backend that answers *)

Section Answered.

Variable stdout : Usage.stream.
Variable now : datetime.
Variables tenant_uuid action : string.
Variable a : Usage.adapter.
Variable f : string -> string -> string -> outcome UsageResponse.
Variable bindings : dict.
Variable u : UsageResponse.

Hypothesis tenant_given : tenant_uuid <> "".
Hypothesis cp_given : Usage.cp_truthy a = true.
Hypothesis has_get_usage : Usage.get_usage a = Some f.
Hypothesis query_succeeds :
  f tenant_uuid (isoformat (replace_month_start now)) (isoformat now)
  = Returns u.

(** C3: when the query succeeds, the governor raises
    [UpgradeRequiredError] exactly when the tier is free and
    [calls_used >= calls_limit]; whatever it raises carries the usage it
    was given and the checkout URL of the tenant; in every other case it
    returns. *)
Theorem enforce_usage_limit_blocks_iff (free_tier_limit warning_threshold : Z) :
  ((exists msg,
      result (Usage.enforce_usage_limit stdout now tenant_uuid action (Some a)
                bindings free_tier_limit warning_threshold)
      = Raises (UpgradeRequiredError msg u
                  ("/api/upgrade/checkout?tenant=" ++ tenant_uuid)))
   <-> (tier u = "free" /\ calls_used u >= calls_limit u))
  /\ (forall e,
        result (Usage.enforce_usage_limit stdout now tenant_uuid action (Some a)
                  bindings free_tier_limit warning_threshold) = Raises e ->
        exists msg,
          e = UpgradeRequiredError msg u
                ("/api/upgrade/checkout?tenant=" ++ tenant_uuid))
  /\ (~ (tier u = "free" /\ calls_used u >= calls_limit u) ->
      exists w,
        result (Usage.enforce_usage_limit stdout now tenant_uuid action (Some a)
                  bindings free_tier_limit warning_threshold) = Returns w).
Proof.
  rewrite (enforce_query_returns stdout now tenant_uuid action bindings
             free_tier_limit warning_threshold a f u
             (truthy_str_nonempty _ tenant_given) cp_given has_get_usage
             query_succeeds).
  unfold result, Usage.checkout_url; cbn [fst].
  assert (Hblock :
    (tier u =? "free")%string && (calls_used u >=? calls_limit u) = true
    <-> tier u = "free" /\ calls_used u >= calls_limit u).
  { rewrite andb_true_iff, String.eqb_eq, Z.geb_le. intuition lia. }
  destruct ((tier u =? "free")%string && (calls_used u >=? calls_limit u)).
  - split; [split | split].
    + intros _. now apply Hblock.
    + intros _. eexists; reflexivity.
    + intros e He. injection He as <-. eexists; reflexivity.
    + intros Hn. exfalso. apply Hn. now apply Hblock.
  - assert (Hn : ~ (tier u = "free" /\ calls_used u >= calls_limit u)).
    { intros Hc. apply Hblock in Hc. discriminate. }
    split; [split | split].
    + intros [msg Hm].
      destruct ((tier u =? "free")%string
                && (calls_used u >=? warning_threshold)); discriminate.
    + intros Hc. contradiction.
    + intros e He.
      destruct ((tier u =? "free")%string
                && (calls_used u >=? warning_threshold)); discriminate.
    + intros _.
      destruct ((tier u =? "free")%string
                && (calls_used u >=? warning_threshold));
        eexists; reflexivity.
Qed.

(** C4: when the query succeeds with tier free, [calls_used] below
    [calls_limit] and at or above the warning threshold, the governor
    returns the warning dict; with the default threshold, limit 100 and
    95 calls used, the warning's usage reports [calls_remaining = 5]. *)
Theorem enforce_usage_limit_warns :
  (forall free_tier_limit warning_threshold : Z,
     tier u = "free" ->
     calls_used u < calls_limit u ->
     calls_used u >= warning_threshold ->
     result (Usage.enforce_usage_limit stdout now tenant_uuid action (Some a)
               bindings free_tier_limit warning_threshold)
     = Returns (Some
         [ ("message",
            PStr ("You have " ++ str_int (calls_limit u - calls_used u)
                    ++ " free calls remaining. Add a payment method to continue after "
                    ++ str_int (calls_limit u) ++ " calls."));
           ("upgrade_url",
            PStr ("/api/upgrade/checkout?tenant=" ++ tenant_uuid));
           ("usage",
            PDict [ ("calls_used", PInt (calls_used u));
                    ("calls_limit", PInt (calls_limit u));
                    ("calls_remaining", PInt (calls_limit u - calls_used u));
                    ("tier", PStr "free") ]) ]))
  /\ (tier u = "free" -> calls_limit u = 100 -> calls_used u = 95 ->
      exists w usage,
        result (Usage.enforce_usage_limit stdout now tenant_uuid action (Some a)
                  bindings Usage.default_free_tier_limit
                  Usage.default_warning_threshold) = Returns (Some w)
        /\ dict_get "usage" w = Some (PDict usage)
        /\ dict_get "calls_remaining" usage = Some (PInt 5)).
Proof.
  assert (Hgen : forall free_tier_limit warning_threshold : Z,
     tier u = "free" ->
     calls_used u < calls_limit u ->
     calls_used u >= warning_threshold ->
     Usage.enforce_usage_limit stdout now tenant_uuid action (Some a)
               bindings free_tier_limit warning_threshold
     = (Returns (Some
         [ ("message",
            PStr ("You have " ++ str_int (calls_limit u - calls_used u)
                    ++ " free calls remaining. Add a payment method to continue after "
                    ++ str_int (calls_limit u) ++ " calls."));
           ("upgrade_url",
            PStr ("/api/upgrade/checkout?tenant=" ++ tenant_uuid));
           ("usage",
            PDict [ ("calls_used", PInt (calls_used u));
                    ("calls_limit", PInt (calls_limit u));
                    ("calls_remaining", PInt (calls_limit u - calls_used u));
                    ("tier", PStr "free") ]) ]),
        [EvHasattr "get_usage";
         EvGetUsage tenant_uuid (isoformat (replace_month_start now))
           (isoformat now)])).
  { intros ftl wt Htier Hlt Hge.
    rewrite (enforce_query_returns stdout now tenant_uuid action bindings
               ftl wt a f u
               (truthy_str_nonempty _ tenant_given) cp_given has_get_usage
               query_succeeds).
    rewrite Htier. cbn [String.eqb Ascii.eqb Bool.eqb andb].
    replace (calls_used u >=? calls_limit u) with false
      by (symmetry; rewrite Z.geb_leb; apply Z.leb_gt; exact Hlt).
    replace (calls_used u >=? wt) with true
      by (symmetry; apply Z.geb_le; lia).
    reflexivity. }
  split.
  - intros ftl wt Htier Hlt Hge. unfold result.
    now rewrite (Hgen ftl wt Htier Hlt Hge).
  - intros Htier Hlim Hused. unfold result.
    rewrite (Hgen Usage.default_free_tier_limit
               Usage.default_warning_threshold Htier);
      [| lia | unfold Usage.default_warning_threshold; lia].
    cbn [fst]. do 2 eexists. split; [reflexivity |].
    split; [reflexivity |].
    rewrite Hlim, Hused. reflexivity.
Qed.

(** C10: when the query succeeds with a tier other than ["free"], the
    governor returns [None], however [calls_used] compares with
    [calls_limit]: no raise, no warning. *)
Theorem enforce_usage_limit_other_tier (free_tier_limit warning_threshold : Z) :
  tier u <> "free" ->
  result (Usage.enforce_usage_limit stdout now tenant_uuid action (Some a)
            bindings free_tier_limit warning_threshold) = Returns None.
Proof.
  intros Htier. apply String.eqb_neq in Htier.
  rewrite (enforce_query_returns stdout now tenant_uuid action bindings
             free_tier_limit warning_threshold a f u
             (truthy_str_nonempty _ tenant_given) cp_given has_get_usage
             query_succeeds).
  rewrite Htier. reflexivity.
Qed.

End Answered.

(** ** The governor with a backend that fails *)

Section Failing.

Variable stdout : Usage.stream.
Variable now : datetime.
Variables tenant_uuid action : string.
Variable a : Usage.adapter.
Variable f : string -> string -> string -> outcome UsageResponse.
Variable bindings : dict.
Variable e : exn.

Hypothesis tenant_given : tenant_uuid <> "".
Hypothesis cp_given : Usage.cp_truthy a = true.
Hypothesis has_get_usage : Usage.get_usage a = Some f.
Hypothesis query_fails :
  f tenant_uuid (isoformat (replace_month_start now)) (isoformat now)
  = Raises e.

(** C5 (amended): an exception raised by [get_usage] that is an
    [Exception] and not an [UpgradeRequiredError], and whose log line is
    formatted and printed without raising, is caught: the governor prints
    the line and returns [None], so the caller sees neither a warning nor
    an error.  An [UpgradeRequiredError] raised by [get_usage], and an
    exception outside [Exception], are re-raised to the caller. *)
Theorem enforce_usage_limit_fails_open (free_tier_limit warning_threshold : Z) :
  (forall s : string,
     isinstance_Exception e = true ->
     isinstance_UpgradeRequiredError e = false ->
     str_exn e = Returns s ->
     stdout ("[USAGE] Usage check failed: " ++ s
               ++ ", allowing request to proceed") = Returns tt ->
     result (Usage.enforce_usage_limit stdout now tenant_uuid action (Some a)
               bindings free_tier_limit warning_threshold) = Returns None
     /\ trace (Usage.enforce_usage_limit stdout now tenant_uuid action
                 (Some a) bindings free_tier_limit warning_threshold)
        = [ EvHasattr "get_usage";
            EvGetUsage tenant_uuid (isoformat (replace_month_start now))
              (isoformat now);
            EvPrint ("[USAGE] Usage check failed: " ++ s
                       ++ ", allowing request to proceed") ])
  /\ (isinstance_UpgradeRequiredError e = true
      \/ isinstance_Exception e = false ->
      result (Usage.enforce_usage_limit stdout now tenant_uuid action (Some a)
                bindings free_tier_limit warning_threshold) = Raises e).
Proof.
  rewrite (enforce_query_raises stdout now tenant_uuid action bindings
             free_tier_limit warning_threshold a f e
             (truthy_str_nonempty _ tenant_given) cp_given has_get_usage
             query_fails).
  split.
  - intros s Hexc Hnot Hstr Hout.
    rewrite Hnot, Hexc, Hstr, Hout. split; reflexivity.
  - intros [H | H]; rewrite H; [reflexivity |].
    destruct (isinstance_UpgradeRequiredError e); reflexivity.
Qed.

(** X2: when [get_usage] raises [e], the governor raises [e'] in exactly
    three cases: [e] is re-raised ([e' = e], an [UpgradeRequiredError] or
    an exception outside [Exception]); [e] is caught and [str(e)] raises
    [e']; [e] is caught and printing the log line raises [e'].  Otherwise
    it returns [None]. *)
Theorem enforce_usage_limit_raises_only
    (free_tier_limit warning_threshold : Z) :
  (forall e' : exn,
     result (Usage.enforce_usage_limit stdout now tenant_uuid action (Some a)
               bindings free_tier_limit warning_threshold) = Raises e'
     <-> ((e' = e
           /\ (isinstance_UpgradeRequiredError e = true
               \/ isinstance_Exception e = false))
          \/ (isinstance_UpgradeRequiredError e = false
              /\ isinstance_Exception e = true
              /\ (str_exn e = Raises e'
                  \/ exists s,
                       str_exn e = Returns s
                       /\ stdout ("[USAGE] Usage check failed: " ++ s
                                    ++ ", allowing request to proceed")
                          = Raises e'))))
  /\ (forall w : option dict,
        result (Usage.enforce_usage_limit stdout now tenant_uuid action
                  (Some a) bindings free_tier_limit warning_threshold)
        = Returns w ->
        w = None).
Proof.
  rewrite (enforce_query_raises stdout now tenant_uuid action bindings
             free_tier_limit warning_threshold a f e
             (truthy_str_nonempty _ tenant_given) cp_given has_get_usage
             query_fails).
  unfold result.
  destruct (isinstance_UpgradeRequiredError e) eqn:Hu; cbn [fst].
  { split.
    - intros e'. split.
      + intros H. injection H as <-. left. auto.
      + intros [[-> _] | (Hx & _)]; [reflexivity | discriminate].
    - intros w H. discriminate. }
  destruct (isinstance_Exception e) eqn:He; cbn [fst].
  2:{ split.
      - intros e'. split.
        + intros H. injection H as <-. left. auto.
        + intros [[-> _] | (_ & Hx & _)]; [reflexivity | discriminate].
      - intros w H. discriminate. }
  destruct (str_exn e) as [s | e0] eqn:Hs; cbn [fst].
  2:{ split.
      - intros e'. split.
        + intros H. injection H as <-. right. auto.
        + intros [[_ [Hx | Hx]] | (_ & _ & [Hx | (s & Hx & _)])];
            try discriminate.
          now injection Hx as <-.
      - intros w H. discriminate. }
  destruct (stdout ("[USAGE] Usage check failed: " ++ s
                      ++ ", allowing request to proceed"))
    as [[] | e0] eqn:Ho.
  - split.
    + intros e'. split; [discriminate |].
      intros [[_ [Hx | Hx]] | (_ & _ & [Hx | (s' & Hx & Hy)])];
        try discriminate.
      injection Hx as <-. rewrite Ho in Hy. discriminate.
    + intros w H. now injection H as <-.
  - split.
    + intros e'. split.
      * intros H. injection H as <-. right.
        split; [reflexivity |]. split; [reflexivity |].
        right. exists s. auto.
      * intros [[_ [Hx | Hx]] | (_ & _ & [Hx | (s' & Hx & Hy)])];
          try discriminate.
        injection Hx as <-. rewrite Ho in Hy. now injection Hy as <-.
    + intros w H. discriminate.
Qed.

(** X14: an [UpgradeRequiredError] raised by [get_usage] itself, and an
    exception outside [Exception], leave the governor unchanged: the two
    handlers that re-raise are [except UpgradeRequiredError: raise] and
    what [except Exception] does not match. *)
Lemma enforce_usage_limit_propagates (free_tier_limit warning_threshold : Z) :
  isinstance_UpgradeRequiredError e = true
  \/ isinstance_Exception e = false ->
  result (Usage.enforce_usage_limit stdout now tenant_uuid action (Some a)
            bindings free_tier_limit warning_threshold) = Raises e.
Proof.
  intros H.
  rewrite (enforce_query_raises stdout now tenant_uuid action bindings
             free_tier_limit warning_threshold a f e
             (truthy_str_nonempty _ tenant_given) cp_given has_get_usage
             query_fails).
  destruct H as [H | H]; rewrite H; [reflexivity |].
  destruct (isinstance_UpgradeRequiredError e); reflexivity.
Qed.

End Failing.

(** C5, as stated, fails: an [UpgradeRequiredError] that the backend's
    [get_usage] raises (here for a tenant at 7 of 100 calls, which the
    governor's own limit check would let pass) is re-raised to the caller,
    and so is a [KeyboardInterrupt]; neither is caught and turned into
    [None]. *)
Lemma enforce_usage_limit_backend_errors_surface :
  result (Usage.enforce_usage_limit Samples.stdout0 Samples.now0 "t1"
            "create"
            (Some (Samples.failing_backend Samples.backend_upgrade))
            [] 100 90)
  = Raises Samples.backend_upgrade
  /\ Raises Samples.backend_upgrade <> Returns (@None dict)
  /\ result (Usage.enforce_usage_limit Samples.stdout0 Samples.now0 "t1"
               "create"
               (Some (Samples.failing_backend
                        (SystemExiting "KeyboardInterrupt" "")))
               [] 100 90)
     = Raises (SystemExiting "KeyboardInterrupt" "").
Proof.
  split; [reflexivity |]. split; [discriminate | reflexivity].
Qed.

(** ** Warnings *)

(** A returned warning comes from the third branch of the query path. *)
Lemma enforce_usage_limit_warning_inv
    (stdout : Usage.stream) (now : datetime) (tenant_uuid action : string)
    (cp : Usage.control_plane) (bindings : dict)
    (free_tier_limit warning_threshold : Z) (w : dict) :
  result (Usage.enforce_usage_limit stdout now tenant_uuid action cp bindings
            free_tier_limit warning_threshold) = Returns (Some w) ->
  exists a f u,
    cp = Some a /\ Usage.get_usage a = Some f
    /\ f tenant_uuid (isoformat (replace_month_start now)) (isoformat now)
       = Returns u
    /\ tier u = "free"
    /\ calls_used u < calls_limit u
    /\ calls_used u >= warning_threshold
    /\ w = [ ("message",
              PStr ("You have " ++ str_int (calls_limit u - calls_used u)
                      ++ " free calls remaining. Add a payment method to continue after "
                      ++ str_int (calls_limit u) ++ " calls."));
             ("upgrade_url",
              PStr ("/api/upgrade/checkout?tenant=" ++ tenant_uuid));
             ("usage",
              PDict [ ("calls_used", PInt (calls_used u));
                      ("calls_limit", PInt (calls_limit u));
                      ("calls_remaining",
                       PInt (calls_limit u - calls_used u));
                      ("tier", PStr (tier u)) ]) ].
Proof.
  intros H.
  destruct (truthy_str tenant_uuid) eqn:Ht.
  2:{ rewrite enforce_skips in H by now left. discriminate. }
  destruct cp as [a |].
  2:{ rewrite enforce_skips in H by now right. discriminate. }
  destruct (Usage.cp_truthy a) eqn:Ha.
  2:{ rewrite enforce_skips in H by now right. discriminate. }
  destruct (Usage.get_usage a) as [f |] eqn:Hg.
  2:{ rewrite enforce_no_capability in H by assumption. discriminate. }
  destruct (f tenant_uuid (isoformat (replace_month_start now))
              (isoformat now)) as [u | e] eqn:Hf.
  2:{ rewrite (enforce_query_raises _ _ _ _ _ _ _ a f e Ht Ha Hg Hf) in H.
      handler_cases; discriminate. }
  rewrite (enforce_query_returns _ _ _ _ _ _ _ a f u Ht Ha Hg Hf) in H.
  unfold result in H; cbn [fst] in H.
  destruct (tier u =? "free")%string eqn:Htier; cbn [andb] in H;
    [| discriminate].
  apply String.eqb_eq in Htier.
  destruct (calls_used u >=? calls_limit u) eqn:Hblock; [discriminate |].
  destruct (calls_used u >=? warning_threshold) eqn:Hwarn; [| discriminate].
  injection H as <-.
  exists a, f, u. repeat (split; [first [reflexivity | assumption] |]).
  split.
  - rewrite Z.geb_leb in Hblock. apply Z.leb_gt in Hblock. exact Hblock.
  - split; [| reflexivity]. apply Z.le_ge, Z.geb_le. exact Hwarn.
Qed.

(** C9: every warning the governor returns reports a [calls_remaining] of
    at least one. *)
Theorem warning_calls_remaining_positive
    (stdout : Usage.stream) (now : datetime) (tenant_uuid action : string)
    (cp : Usage.control_plane) (bindings : dict)
    (free_tier_limit warning_threshold : Z) (w : dict) :
  result (Usage.enforce_usage_limit stdout now tenant_uuid action cp bindings
            free_tier_limit warning_threshold) = Returns (Some w) ->
  exists usage r,
    dict_get "usage" w = Some (PDict usage)
    /\ dict_get "calls_remaining" usage = Some (PInt r)
    /\ r >= 1.
Proof.
  intros H.
  destruct (enforce_usage_limit_warning_inv _ _ _ _ _ _ _ _ _ H)
    as (a & f & u & _ & _ & _ & _ & Hlt & _ & ->).
  do 2 eexists. split; [reflexivity |]. split; [reflexivity |]. lia.
Qed.

(** ** Capability detection *)

(** C8, as stated, fails: serving one request, the governor inspects the
    control plane for [get_usage] before it queries it. *)
Lemma enforce_usage_limit_inspects_at_request :
  trace (Usage.enforce_usage_limit Samples.stdout0 Samples.now0 "t1" "create"
           (Some (Samples.backend "paid" 3 1000)) []
           Usage.default_free_tier_limit Usage.default_warning_threshold)
  = [ EvHasattr "get_usage";
      EvGetUsage "t1" "2026-11-01T00:00:00+00:00"
        "2026-11-03T19:10:42+00:00" ].
Proof. reflexivity. Qed.

(** C8 (amended): the capability is detected on each call of
    [enforce_usage_limit] that has a tenant and a truthy control plane, by
    inspecting the control plane for a [get_usage] attribute before
    anything else is done; a call without tenant or control plane does
    nothing at all. *)
Theorem enforce_usage_limit_inspects_each_call
    (stdout : Usage.stream) (now : datetime) (tenant_uuid action : string)
    (cp : Usage.control_plane) (bindings : dict)
    (free_tier_limit warning_threshold : Z) :
  hd_error (trace (Usage.enforce_usage_limit stdout now tenant_uuid action cp
                     bindings free_tier_limit warning_threshold))
  = if truthy_str tenant_uuid && Usage.truthy_cp cp
    then Some (EvHasattr "get_usage")
    else None.
Proof.
  destruct (truthy_str tenant_uuid) eqn:Ht.
  2:{ rewrite enforce_skips by now left. reflexivity. }
  destruct cp as [a |].
  2:{ rewrite enforce_skips by now right. reflexivity. }
  cbn [Usage.truthy_cp andb].
  destruct (Usage.cp_truthy a) eqn:Ha.
  2:{ rewrite enforce_skips by (right; exact Ha). reflexivity. }
  destruct (Usage.get_usage a) as [f |] eqn:Hg.
  2:{ rewrite enforce_no_capability by assumption. reflexivity. }
  destruct (f tenant_uuid (isoformat (replace_month_start now))
              (isoformat now)) as [u | e] eqn:Hf.
  - now rewrite (enforce_query_returns _ _ _ _ _ _ _ a f u Ht Ha Hg Hf).
  - rewrite (enforce_query_raises _ _ _ _ _ _ _ a f e Ht Ha Hg Hf).
    handler_cases; reflexivity.
Qed.

(** ** The theorems at sample inputs *)

Lemma enforce_usage_limit_blocks_iff_witness :
  "t1" <> ""
  /\ Samples.answer "free" 100 100 "t1"
       (isoformat (replace_month_start Samples.now0))
       (isoformat Samples.now0)
     = Returns (Samples.usage_of "free" 100 100 "t1" Samples.ps0 Samples.pe0)
  /\ exists msg,
       result (Usage.enforce_usage_limit Samples.stdout0 Samples.now0 "t1" "create"
                 (Some (Samples.backend "free" 100 100)) [] 100 90)
       = Raises (UpgradeRequiredError msg
                   (Samples.usage_of "free" 100 100 "t1"
                      Samples.ps0 Samples.pe0)
                   "/api/upgrade/checkout?tenant=t1").
Proof.
  assert (Ht : "t1" <> "") by discriminate.
  split; [exact Ht |]. split; [reflexivity |].
  apply (proj1 (enforce_usage_limit_blocks_iff
                  Samples.stdout0 Samples.now0 "t1" "create"
                  (Samples.backend "free" 100 100)
                  (Samples.answer "free" 100 100) []
                  (Samples.usage_of "free" 100 100 "t1"
                     Samples.ps0 Samples.pe0)
                  Ht eq_refl eq_refl eq_refl 100 90)).
  split; [reflexivity | cbn; lia].
Defined.

Lemma enforce_usage_limit_warns_witness :
  "t1" <> ""
  /\ tier (Samples.usage_of "free" 95 100 "t1" Samples.ps0 Samples.pe0)
     = "free"
  /\ exists w usage,
       result (Usage.enforce_usage_limit Samples.stdout0 Samples.now0 "t1" "create"
                 (Some (Samples.backend "free" 95 100)) []
                 Usage.default_free_tier_limit
                 Usage.default_warning_threshold) = Returns (Some w)
       /\ dict_get "usage" w = Some (PDict usage)
       /\ dict_get "calls_remaining" usage = Some (PInt 5).
Proof.
  assert (Ht : "t1" <> "") by discriminate.
  split; [exact Ht |]. split; [reflexivity |].
  exact (proj2 (enforce_usage_limit_warns
                  Samples.stdout0 Samples.now0 "t1" "create"
                  (Samples.backend "free" 95 100)
                  (Samples.answer "free" 95 100) []
                  (Samples.usage_of "free" 95 100 "t1"
                     Samples.ps0 Samples.pe0)
                  Ht eq_refl eq_refl eq_refl)
               eq_refl eq_refl eq_refl).
Defined.

Lemma enforce_usage_limit_other_tier_witness :
  "t1" <> ""
  /\ tier (Samples.usage_of "paid" 5000 1000 "t1" Samples.ps0 Samples.pe0)
     <> "free"
  /\ result (Usage.enforce_usage_limit Samples.stdout0 Samples.now0 "t1" "create"
               (Some (Samples.backend "paid" 5000 1000)) [] 100 90)
     = Returns None.
Proof.
  assert (Ht : "t1" <> "") by discriminate.
  assert (Hp : tier (Samples.usage_of "paid" 5000 1000 "t1"
                       Samples.ps0 Samples.pe0) <> "free")
    by discriminate.
  split; [exact Ht |]. split; [exact Hp |].
  exact (enforce_usage_limit_other_tier
           Samples.stdout0 Samples.now0 "t1" "create"
           (Samples.backend "paid" 5000 1000)
           (Samples.answer "paid" 5000 1000) []
           (Samples.usage_of "paid" 5000 1000 "t1" Samples.ps0 Samples.pe0)
           Ht eq_refl eq_refl eq_refl 100 90 Hp).
Defined.

Lemma enforce_usage_limit_fails_open_witness :
  "t1" <> ""
  /\ isinstance_Exception Samples.timeout = true
  /\ isinstance_UpgradeRequiredError Samples.timeout = false
  /\ str_exn Samples.timeout = Returns "timed out"
  /\ result (Usage.enforce_usage_limit Samples.stdout0 Samples.now0 "t1"
               "create" (Some (Samples.failing_backend Samples.timeout))
               [] 100 90)
     = Returns None.
Proof.
  assert (Ht : "t1" <> "") by discriminate.
  split; [exact Ht |]. split; [reflexivity |]. split; [reflexivity |].
  split; [reflexivity |].
  exact (proj1 (proj1 (enforce_usage_limit_fails_open
                         Samples.stdout0 Samples.now0 "t1" "create"
                         (Samples.failing_backend Samples.timeout)
                         (Samples.failure Samples.timeout) []
                         Samples.timeout
                         Ht eq_refl eq_refl eq_refl 100 90)
                  "timed out" eq_refl eq_refl eq_refl eq_refl)).
Defined.

Lemma enforce_usage_limit_raises_only_witness :
  result (Usage.enforce_usage_limit Samples.closed_stdout Samples.now0 "t1"
            "create" (Some (Samples.failing_backend Samples.timeout))
            [] 100 90)
  = Raises (OtherException "ValueError" "I/O operation on closed file.").
Proof.
  apply (proj1 (enforce_usage_limit_raises_only
                  Samples.closed_stdout Samples.now0 "t1" "create"
                  (Samples.failing_backend Samples.timeout)
                  (Samples.failure Samples.timeout) []
                  Samples.timeout
                  ltac:(discriminate) eq_refl eq_refl eq_refl 100 90)).
  right. split; [reflexivity |]. split; [reflexivity |].
  right. exists "timed out". split; reflexivity.
Defined.

Lemma warning_calls_remaining_positive_witness :
  exists w usage r,
    result (Usage.enforce_usage_limit Samples.stdout0 Samples.now0 "t1" "create"
              (Some (Samples.backend "free" 95 100)) [] 100 90)
    = Returns (Some w)
    /\ dict_get "usage" w = Some (PDict usage)
    /\ dict_get "calls_remaining" usage = Some (PInt r)
    /\ r >= 1.
Proof.
  eexists.
  destruct (warning_calls_remaining_positive
              Samples.stdout0 Samples.now0 "t1" "create"
              (Some (Samples.backend "free" 95 100)) [] 100 90 _ eq_refl)
    as (usage & r & Hu & Hr & Hpos).
  exists usage, r. split; [reflexivity |]. repeat split; assumption.
Defined.

(** * Further properties of the governor *)

(** Which of the four paths a call takes. *)
Lemma enforce_usage_limit_cases
    (now : datetime) (tenant_uuid : string) (cp : Usage.control_plane) :
  (truthy_str tenant_uuid = false \/ Usage.truthy_cp cp = false)
  \/ (exists a,
        cp = Some a /\ truthy_str tenant_uuid = true
        /\ Usage.cp_truthy a = true /\ Usage.get_usage a = None)
  \/ (exists a f u,
        cp = Some a /\ truthy_str tenant_uuid = true
        /\ Usage.cp_truthy a = true /\ Usage.get_usage a = Some f
        /\ f tenant_uuid (isoformat (replace_month_start now))
             (isoformat now) = Returns u)
  \/ (exists a f e,
        cp = Some a /\ truthy_str tenant_uuid = true
        /\ Usage.cp_truthy a = true /\ Usage.get_usage a = Some f
        /\ f tenant_uuid (isoformat (replace_month_start now))
             (isoformat now) = Raises e).
Proof.
  destruct (truthy_str tenant_uuid) eqn:Ht; [| now left; left].
  destruct cp as [a |]; [| now left; right].
  destruct (Usage.cp_truthy a) eqn:Ha; [| left; right; exact Ha].
  right.
  destruct (Usage.get_usage a) as [f |] eqn:Hg.
  - right.
    destruct (f tenant_uuid (isoformat (replace_month_start now))
                (isoformat now)) as [u | e] eqn:Hf.
    + left. exists a, f, u. auto.
    + right. exists a, f, e. auto.
  - left. exists a. auto.
Qed.

(** Splits a goal about a call along [enforce_usage_limit_cases] and
    rewrites the call with the lemma of its path. *)
Ltac enforce_paths now tenant cp :=
  let a := fresh "a" in
  let f := fresh "f" in
  let u := fresh "u" in
  let e := fresh "e" in
  let Ht := fresh "Ht" in
  let Ha := fresh "Ha" in
  let Hg := fresh "Hg" in
  let Hf := fresh "Hf" in
  destruct (enforce_usage_limit_cases now tenant cp)
    as [Ht
       | [(a & -> & Ht & Ha & Hg)
         | [(a & f & u & -> & Ht & Ha & Hg & Hf)
           | (a & f & e & -> & Ht & Ha & Hg & Hf)]]];
  [ repeat rewrite (enforce_skips _ now tenant _ _ _ _ cp Ht) in *
  | repeat rewrite (enforce_no_capability _ now tenant _ _ _ _ a Ht Ha Hg) in *
  | repeat rewrite (enforce_query_returns _ now tenant _ _ _ _ a f u
                      Ht Ha Hg Hf) in *
  | repeat rewrite (enforce_query_raises _ now tenant _ _ _ _ a f e
                      Ht Ha Hg Hf) in * ].

(** ** A call that reaches the query *)

Section Queried.

Variable stdout : Usage.stream.
Variable now : datetime.
Variables tenant_uuid action : string.
Variable a : Usage.adapter.
Variable f : string -> string -> string -> outcome UsageResponse.
Variable bindings : dict.
Variables free_tier_limit warning_threshold : Z.

Hypothesis tenant_given : tenant_uuid <> "".
Hypothesis cp_given : Usage.cp_truthy a = true.
Hypothesis has_get_usage : Usage.get_usage a = Some f.

(** X1: with a tenant and a truthy control plane whose [get_usage] is a
    method, a call inspects the control plane, then queries the backend
    exactly once, for the caller's tenant over the month to date; after
    that it does nothing more, or prints one log line. *)
Theorem enforce_usage_limit_trace_shape :
  exists rest : list event,
    trace (Usage.enforce_usage_limit stdout now tenant_uuid action (Some a)
             bindings free_tier_limit warning_threshold)
    = ([ EvHasattr "get_usage";
         EvGetUsage tenant_uuid (isoformat (replace_month_start now))
           (isoformat now) ] ++ rest)%list
    /\ (rest = [] \/ exists line, rest = [EvPrint line]).
Proof.
  pose proof (truthy_str_nonempty _ tenant_given) as Ht.
  destruct (f tenant_uuid (isoformat (replace_month_start now))
              (isoformat now)) as [u | e] eqn:Hf.
  - rewrite (enforce_query_returns stdout now tenant_uuid action bindings
               free_tier_limit warning_threshold a f u
               Ht cp_given has_get_usage Hf).
    exists []. split; [reflexivity | now left].
  - rewrite (enforce_query_raises stdout now tenant_uuid action bindings
               free_tier_limit warning_threshold a f e
               Ht cp_given has_get_usage Hf).
    handler_cases;
      first [ exists []; split; [reflexivity | now left]
            | eexists; split; [reflexivity | right; eexists; reflexivity] ].
Qed.

(** X3: when [get_usage] answers with a [UsageResponse], nothing is
    printed, whatever the answer leads to; when it raises [e], a log line
    is printed exactly when [e] is an [Exception] other than
    [UpgradeRequiredError] whose [str(e)] does not raise. *)
Theorem enforce_usage_limit_logs_iff :
  (forall u : UsageResponse,
     f tenant_uuid (isoformat (replace_month_start now)) (isoformat now)
     = Returns u ->
     trace (Usage.enforce_usage_limit stdout now tenant_uuid action (Some a)
              bindings free_tier_limit warning_threshold)
     = [ EvHasattr "get_usage";
         EvGetUsage tenant_uuid (isoformat (replace_month_start now))
           (isoformat now) ])
  /\ (forall e : exn,
        f tenant_uuid (isoformat (replace_month_start now)) (isoformat now)
        = Raises e ->
        ((exists line,
            In (EvPrint line)
               (trace (Usage.enforce_usage_limit stdout now tenant_uuid
                         action (Some a) bindings free_tier_limit
                         warning_threshold)))
         <-> (isinstance_Exception e = true
              /\ isinstance_UpgradeRequiredError e = false
              /\ exists s, str_exn e = Returns s))).
Proof.
  pose proof (truthy_str_nonempty _ tenant_given) as Ht.
  split.
  - intros u Hf.
    now rewrite (enforce_query_returns stdout now tenant_uuid action
                   bindings free_tier_limit warning_threshold a f u
                   Ht cp_given has_get_usage Hf).
  - intros e Hf.
    rewrite (enforce_query_raises stdout now tenant_uuid action bindings
               free_tier_limit warning_threshold a f e
               Ht cp_given has_get_usage Hf).
    unfold trace.
    destruct (isinstance_UpgradeRequiredError e); cbn [snd In].
    { split; [intros [line H]; intuition discriminate
             | intros (_ & Hx & _); discriminate]. }
    destruct (isinstance_Exception e); cbn [snd In].
    2:{ split; [intros [line H]; intuition discriminate
               | intros (Hx & _); discriminate]. }
    destruct (str_exn e) as [s | e']; cbn [snd In].
    + split.
      * intros _. repeat split. now exists s.
      * intros _. eexists. right; right; left. reflexivity.
    + split; [intros [line H]; intuition discriminate
             | intros (_ & _ & s & Hx); discriminate].
Qed.

End Queried.

Lemma enforce_usage_limit_trace_shape_witness :
  exists rest : list event,
    trace (Usage.enforce_usage_limit Samples.stdout0 Samples.now0 "t1"
             "create" (Some (Samples.failing_backend Samples.timeout))
             [] 100 90)
    = ([ EvHasattr "get_usage";
         EvGetUsage "t1" Samples.ps0 Samples.pe0 ] ++ rest)%list
    /\ (rest = [] \/ exists line, rest = [EvPrint line]).
Proof.
  exact (enforce_usage_limit_trace_shape
           Samples.stdout0 Samples.now0 "t1" "create"
           (Samples.failing_backend Samples.timeout)
           (Samples.failure Samples.timeout) [] 100 90
           ltac:(discriminate) eq_refl eq_refl).
Defined.

Lemma enforce_usage_limit_logs_iff_witness :
  trace (Usage.enforce_usage_limit Samples.stdout0 Samples.now0 "t1"
           "create" (Some (Samples.backend "free" 100 100)) [] 100 90)
  = [ EvHasattr "get_usage"; EvGetUsage "t1" Samples.ps0 Samples.pe0 ].
Proof.
  exact (proj1 (enforce_usage_limit_logs_iff
                  Samples.stdout0 Samples.now0 "t1" "create"
                  (Samples.backend "free" 100 100)
                  (Samples.answer "free" 100 100) [] 100 90
                  ltac:(discriminate) eq_refl eq_refl)
               _ eq_refl).
Defined.

(** X4: with an empty tenant, or a control plane that is [None] or falsy,
    the governor does nothing: it returns [None] without inspecting or
    querying the control plane, so a backend that would report the limit
    reached is never asked. *)
Theorem enforce_usage_limit_bypassed
    (stdout : Usage.stream) (now : datetime) (tenant_uuid action : string)
    (cp : Usage.control_plane) (bindings : dict)
    (free_tier_limit warning_threshold : Z) :
  tenant_uuid = "" \/ cp = None
  \/ (exists a, cp = Some a /\ Usage.cp_truthy a = false) ->
  Usage.enforce_usage_limit stdout now tenant_uuid action cp bindings
    free_tier_limit warning_threshold = (Returns None, []).
Proof.
  intros [-> | [-> | (a & -> & Ha)]]; apply enforce_skips.
  - now left.
  - now right.
  - right. exact Ha.
Qed.

Lemma enforce_usage_limit_bypassed_witness :
  Usage.enforce_usage_limit Samples.stdout0 Samples.now0 "" "create"
    (Some (Samples.backend "free" 100 100)) [] 100 90 = (Returns None, []).
Proof.
  exact (enforce_usage_limit_bypassed
           Samples.stdout0 Samples.now0 "" "create" (Some (Samples.backend "free" 100 100))
           [] 100 90 (or_introl eq_refl)).
Defined.

(** X5: the [action], the [bindings] and the [free_tier_limit] argument
    have no effect on what the governor returns, raises or does: the limit
    it enforces is the backend's [calls_limit]. *)
Theorem enforce_usage_limit_ignores_free_tier_limit
    (stdout : Usage.stream) (now : datetime) (tenant_uuid : string) (cp : Usage.control_plane)
    (action action' : string) (bindings bindings' : dict)
    (free_tier_limit free_tier_limit' warning_threshold : Z) :
  Usage.enforce_usage_limit stdout now tenant_uuid action cp bindings
    free_tier_limit warning_threshold
  = Usage.enforce_usage_limit stdout now tenant_uuid action' cp bindings'
      free_tier_limit' warning_threshold.
Proof.
  enforce_paths now tenant_uuid cp; reflexivity.
Qed.

(** X6: whether the governor raises, and what it raises, does not depend
    on the warning threshold. *)
Theorem enforce_usage_limit_block_ignores_threshold
    (stdout : Usage.stream) (now : datetime) (tenant_uuid action : string)
    (cp : Usage.control_plane) (bindings : dict)
    (free_tier_limit warning_threshold warning_threshold' : Z) (e : exn) :
  result (Usage.enforce_usage_limit stdout now tenant_uuid action cp bindings
            free_tier_limit warning_threshold) = Raises e ->
  result (Usage.enforce_usage_limit stdout now tenant_uuid action cp bindings
            free_tier_limit warning_threshold') = Raises e.
Proof.
  unfold result.
  enforce_paths now tenant_uuid cp; cbn [fst]; try discriminate.
  - destruct ((tier u =? "free")%string
              && (calls_used u >=? calls_limit u)); [trivial |].
    destruct ((tier u =? "free")%string
              && (calls_used u >=? warning_threshold)); discriminate.
  - trivial.
Qed.

Lemma enforce_usage_limit_block_ignores_threshold_witness :
  result (Usage.enforce_usage_limit Samples.stdout0 Samples.now0 "t1" "create"
            (Some (Samples.backend "free" 100 100)) [] 100 0)
  = Raises (UpgradeRequiredError
              "Free tier limit reached (100 calls). Add a payment method to continue."
              (Samples.usage_of "free" 100 100 "t1" Samples.ps0 Samples.pe0)
              "/api/upgrade/checkout?tenant=t1").
Proof.
  exact (enforce_usage_limit_block_ignores_threshold
           Samples.stdout0 Samples.now0 "t1" "create"
           (Some (Samples.backend "free" 100 100)) [] 100 90 0 _ eq_refl).
Defined.

(** X7: a warning returned at one threshold is returned unchanged at every
    lower threshold. *)
Theorem enforce_usage_limit_warning_monotone
    (stdout : Usage.stream) (now : datetime) (tenant_uuid action : string)
    (cp : Usage.control_plane) (bindings : dict)
    (free_tier_limit warning_threshold warning_threshold' : Z) (w : dict) :
  warning_threshold' <= warning_threshold ->
  result (Usage.enforce_usage_limit stdout now tenant_uuid action cp bindings
            free_tier_limit warning_threshold) = Returns (Some w) ->
  result (Usage.enforce_usage_limit stdout now tenant_uuid action cp bindings
            free_tier_limit warning_threshold') = Returns (Some w).
Proof.
  intros Hle H.
  destruct (enforce_usage_limit_warning_inv _ _ _ _ _ _ _ _ _ H)
    as (a & f & u & -> & Hg & Hf & Htier & Hlt & Hge & ->).
  assert (Ht : truthy_str tenant_uuid = true).
  { destruct tenant_uuid; [| reflexivity].
    rewrite enforce_skips in H by now left. discriminate. }
  assert (Ha : Usage.cp_truthy a = true).
  { destruct (Usage.cp_truthy a) eqn:Ha; [reflexivity |].
    rewrite enforce_skips in H by (right; exact Ha). discriminate. }
  rewrite (enforce_query_returns stdout now tenant_uuid action bindings
             free_tier_limit warning_threshold' a f u Ht Ha Hg Hf).
  unfold result; cbn [fst]. rewrite Htier.
  cbn [String.eqb Ascii.eqb Bool.eqb andb].
  replace (calls_used u >=? calls_limit u) with false
    by (symmetry; rewrite Z.geb_leb; apply Z.leb_gt; exact Hlt).
  replace (calls_used u >=? warning_threshold') with true
    by (symmetry; apply Z.geb_le; lia).
  reflexivity.
Qed.

Lemma enforce_usage_limit_warning_monotone_witness :
  exists w,
    result (Usage.enforce_usage_limit Samples.stdout0 Samples.now0 "t1" "create"
              (Some (Samples.backend "free" 95 100)) [] 100 90)
    = Returns (Some w)
    /\ result (Usage.enforce_usage_limit Samples.stdout0 Samples.now0 "t1" "create"
                 (Some (Samples.backend "free" 95 100)) [] 100 50)
       = Returns (Some w).
Proof.
  eexists. split; [reflexivity |].
  apply (enforce_usage_limit_warning_monotone
           Samples.stdout0 Samples.now0 "t1" "create"
           (Some (Samples.backend "free" 95 100)) [] 100 90 50);
    [lia | reflexivity].
Defined.

(** ** The three answers to a successful query *)

Section Decision.

Variable stdout : Usage.stream.
Variable now : datetime.
Variables tenant_uuid action : string.
Variable a : Usage.adapter.
Variable f : string -> string -> string -> outcome UsageResponse.
Variable bindings : dict.
Variable u : UsageResponse.
Variables free_tier_limit warning_threshold : Z.

Hypothesis tenant_given : tenant_uuid <> "".
Hypothesis cp_given : Usage.cp_truthy a = true.
Hypothesis has_get_usage : Usage.get_usage a = Some f.
Hypothesis query_succeeds :
  f tenant_uuid (isoformat (replace_month_start now)) (isoformat now)
  = Returns u.

Local Abbreviation call :=
  (Usage.enforce_usage_limit stdout now tenant_uuid action (Some a) bindings
     free_tier_limit warning_threshold).

Local Abbreviation call_eq :=
  (enforce_query_returns stdout now tenant_uuid action bindings
     free_tier_limit warning_threshold a f u
     (truthy_str_nonempty _ tenant_given) cp_given has_get_usage
     query_succeeds).

(** X8: when the query succeeds, the governor returns [None] exactly when
    the tier is not free, or the tenant is below both its limit and the
    warning threshold. *)
Theorem enforce_usage_limit_none_iff :
  result call = Returns None
  <-> (tier u <> "free"
       \/ (calls_used u < calls_limit u
           /\ calls_used u < warning_threshold)).
Proof.
  rewrite call_eq. unfold result; cbn [fst].
  destruct (tier u =? "free")%string eqn:Htier;
    [apply String.eqb_eq in Htier | apply String.eqb_neq in Htier];
    cbn [andb].
  - destruct (calls_used u >=? calls_limit u) eqn:Hb;
      [apply Z.geb_le in Hb
      | rewrite Z.geb_leb in Hb; apply Z.leb_gt in Hb].
    + split; [discriminate |]. intros [Hn | [Hlt _]]; [easy | lia].
    + destruct (calls_used u >=? warning_threshold) eqn:Hw;
        [apply Z.geb_le in Hw
        | rewrite Z.geb_leb in Hw; apply Z.leb_gt in Hw].
      * split; [discriminate |]. intros [Hn | [_ Hlt]]; [easy | lia].
      * split; [intros _; right; lia | reflexivity].
  - split; [intros _; now left | reflexivity].
Qed.

(** X9: when the query succeeds, the governor returns a warning exactly
    when the tier is free and [calls_used] is below the limit and at or
    above the warning threshold. *)
Theorem enforce_usage_limit_warns_iff :
  (exists w, result call = Returns (Some w))
  <-> (tier u = "free"
       /\ calls_used u < calls_limit u
       /\ warning_threshold <= calls_used u).
Proof.
  rewrite call_eq. unfold result; cbn [fst].
  destruct (tier u =? "free")%string eqn:Htier;
    [apply String.eqb_eq in Htier | apply String.eqb_neq in Htier];
    cbn [andb].
  - destruct (calls_used u >=? calls_limit u) eqn:Hb;
      [apply Z.geb_le in Hb
      | rewrite Z.geb_leb in Hb; apply Z.leb_gt in Hb].
    + split; [intros [w Hw]; discriminate | intros (_ & Hlt & _); lia].
    + destruct (calls_used u >=? warning_threshold) eqn:Hw;
        [apply Z.geb_le in Hw
        | rewrite Z.geb_leb in Hw; apply Z.leb_gt in Hw].
      * split; [intros _; auto | intros _; eexists; reflexivity].
      * split; [intros [w Hx]; discriminate | intros (_ & _ & Hge); lia].
  - split; [intros [w Hw]; discriminate | intros (Hf & _); contradiction].
Qed.

(** X10: when the backend's limit is at or below the warning threshold,
    the governor never warns: the tenant goes from no notice straight to
    the block. *)
Theorem enforce_usage_limit_no_warning_above_limit :
  calls_limit u <= warning_threshold ->
  result call = Returns None
  \/ exists msg,
       result call
       = Raises (UpgradeRequiredError msg u
                   ("/api/upgrade/checkout?tenant=" ++ tenant_uuid)).
Proof.
  intros Hle. rewrite call_eq. unfold result; cbn [fst].
  destruct (tier u =? "free")%string; cbn [andb]; [| now left].
  destruct (calls_used u >=? calls_limit u) eqn:Hb.
  - right. eexists. reflexivity.
  - rewrite Z.geb_leb in Hb. apply Z.leb_gt in Hb.
    replace (calls_used u >=? warning_threshold) with false
      by (symmetry; rewrite Z.geb_leb; apply Z.leb_gt; lia).
    now left.
Qed.

End Decision.

Lemma enforce_usage_limit_none_iff_witness :
  result (Usage.enforce_usage_limit Samples.stdout0 Samples.now0 "t1" "create"
            (Some (Samples.backend "free" 12 100)) [] 100 90)
  = Returns None.
Proof.
  apply (proj2 (enforce_usage_limit_none_iff
                  Samples.stdout0 Samples.now0 "t1" "create"
                  (Samples.backend "free" 12 100)
                  (Samples.answer "free" 12 100) []
                  (Samples.usage_of "free" 12 100 "t1"
                     Samples.ps0 Samples.pe0)
                  100 90 ltac:(discriminate) eq_refl eq_refl eq_refl)).
  right. cbn. lia.
Defined.

Lemma enforce_usage_limit_warns_iff_witness :
  tier (Samples.usage_of "free" 95 100 "t1" Samples.ps0 Samples.pe0)
  = "free"
  /\ calls_used (Samples.usage_of "free" 95 100 "t1" Samples.ps0 Samples.pe0)
     < calls_limit
         (Samples.usage_of "free" 95 100 "t1" Samples.ps0 Samples.pe0)
  /\ 90 <= calls_used
             (Samples.usage_of "free" 95 100 "t1" Samples.ps0 Samples.pe0).
Proof.
  apply (proj1 (enforce_usage_limit_warns_iff
                  Samples.stdout0 Samples.now0 "t1" "create"
                  (Samples.backend "free" 95 100)
                  (Samples.answer "free" 95 100) []
                  (Samples.usage_of "free" 95 100 "t1"
                     Samples.ps0 Samples.pe0)
                  100 90 ltac:(discriminate) eq_refl eq_refl eq_refl)).
  eexists. reflexivity.
Defined.

Lemma enforce_usage_limit_no_warning_above_limit_witness :
  result (Usage.enforce_usage_limit Samples.stdout0 Samples.now0 "t1" "create"
            (Some (Samples.backend "free" 45 50)) [] 100 90)
  = Returns None
  \/ exists msg,
       result (Usage.enforce_usage_limit Samples.stdout0 Samples.now0 "t1" "create"
                 (Some (Samples.backend "free" 45 50)) [] 100 90)
       = Raises (UpgradeRequiredError msg
                   (Samples.usage_of "free" 45 50 "t1"
                      Samples.ps0 Samples.pe0)
                   ("/api/upgrade/checkout?tenant=" ++ "t1")).
Proof.
  apply (enforce_usage_limit_no_warning_above_limit
           Samples.stdout0 Samples.now0 "t1" "create"
           (Samples.backend "free" 45 50)
           (Samples.answer "free" 45 50) []
           (Samples.usage_of "free" 45 50 "t1" Samples.ps0 Samples.pe0)
           100 90 ltac:(discriminate) eq_refl eq_refl eq_refl).
  cbn. lia.
Defined.

(** ** What a warning holds *)

(** X11: in every warning the governor returns, the usage entry is
    recomputed from the response's counts: [calls_used + calls_remaining =
    calls_limit] with [calls_used < calls_limit], the tier is ["free"],
    and the upgrade URL is the tenant's checkout URL. *)
Theorem warning_usage_consistent
    (stdout : Usage.stream) (now : datetime) (tenant_uuid action : string)
    (cp : Usage.control_plane) (bindings : dict)
    (free_tier_limit warning_threshold : Z) (w : dict) :
  result (Usage.enforce_usage_limit stdout now tenant_uuid action cp bindings
            free_tier_limit warning_threshold) = Returns (Some w) ->
  exists usage used lim r,
    dict_get "usage" w = Some (PDict usage)
    /\ dict_get "calls_used" usage = Some (PInt used)
    /\ dict_get "calls_limit" usage = Some (PInt lim)
    /\ dict_get "calls_remaining" usage = Some (PInt r)
    /\ dict_get "tier" usage = Some (PStr "free")
    /\ used + r = lim /\ warning_threshold <= used < lim
    /\ dict_get "upgrade_url" w
       = Some (PStr ("/api/upgrade/checkout?tenant=" ++ tenant_uuid)).
Proof.
  intros H.
  destruct (enforce_usage_limit_warning_inv _ _ _ _ _ _ _ _ _ H)
    as (a & f & u & _ & _ & _ & Htier & Hlt & Hge & ->).
  exists [ ("calls_used", PInt (calls_used u));
           ("calls_limit", PInt (calls_limit u));
           ("calls_remaining", PInt (calls_limit u - calls_used u));
           ("tier", PStr (tier u)) ],
    (calls_used u), (calls_limit u), (calls_limit u - calls_used u).
  repeat (split; [reflexivity |]).
  split; [cbn; now rewrite Htier |].
  split; [lia |]. split; [lia | reflexivity].
Qed.

Lemma warning_usage_consistent_witness :
  exists w usage,
    result (Usage.enforce_usage_limit Samples.stdout0 Samples.now0 "t1" "create"
              (Some (Samples.backend "free" 95 100)) [] 100 90)
    = Returns (Some w)
    /\ dict_get "usage" w = Some (PDict usage)
    /\ dict_get "tier" usage = Some (PStr "free").
Proof.
  eexists.
  destruct (warning_usage_consistent
              Samples.stdout0 Samples.now0 "t1" "create"
              (Some (Samples.backend "free" 95 100)) [] 100 90 _ eq_refl)
    as (usage & used & lim & r & Hu & _ & _ & _ & Ht & _).
  exists usage. split; [reflexivity |]. split; assumption.
Defined.

(** ** The governor over responses built by the dataclass *)

Section Built.

Variable stdout : Usage.stream.
Variable now : datetime.
Variables tenant_uuid action : string.
Variable a : Usage.adapter.
Variable f : string -> string -> string -> outcome UsageResponse.
Variable bindings : dict.
Variables tn t p0 p1 : string.
Variables used lim : Z.
Variables free_tier_limit warning_threshold : Z.

Hypothesis tenant_given : tenant_uuid <> "".
Hypothesis cp_given : Usage.cp_truthy a = true.
Hypothesis has_get_usage : Usage.get_usage a = Some f.
Hypothesis query_builds :
  f tenant_uuid (isoformat (replace_month_start now)) (isoformat now)
  = Returns (UsageResponse_init tn t used lim p0 p1 None).

Local Abbreviation built := (UsageResponse_init tn t used lim p0 p1 None).

Local Abbreviation built_eq :=
  (enforce_query_returns stdout now tenant_uuid action bindings
     free_tier_limit warning_threshold a f built
     (truthy_str_nonempty _ tenant_given) cp_given has_get_usage
     query_builds).

(** X12: for a response built without an explicit [calls_remaining], the
    governor raises exactly when the tier is free and the response's
    derived [calls_remaining] is zero. *)
Theorem blocked_iff_no_calls_remaining :
  (exists e,
     result (Usage.enforce_usage_limit stdout now tenant_uuid action (Some a)
               bindings free_tier_limit warning_threshold) = Raises e)
  <-> (t = "free" /\ calls_remaining built = Some 0).
Proof.
  rewrite built_eq. unfold result; cbn.
  destruct (t =? "free")%string eqn:Htier;
    [apply String.eqb_eq in Htier | apply String.eqb_neq in Htier];
    cbn [andb].
  - destruct (used >=? lim) eqn:Hb;
      [apply Z.geb_le in Hb
      | rewrite Z.geb_leb in Hb; apply Z.leb_gt in Hb].
    + split; [intros _ | intros _; eexists; reflexivity].
      split; [assumption | f_equal; lia].
    + split.
      * intros [e He]. destruct (used >=? warning_threshold); discriminate.
      * intros [_ Hz]. injection Hz as Hz. lia.
  - split; [intros [e He]; discriminate | intros [Hf _]; contradiction].
Qed.

(** X13: for a response built without an explicit [calls_remaining], the
    [calls_remaining] a warning reports is the one the response holds. *)
Theorem warning_reports_derived_remaining (w : dict) :
  result (Usage.enforce_usage_limit stdout now tenant_uuid action (Some a)
            bindings free_tier_limit warning_threshold) = Returns (Some w) ->
  exists usage r,
    dict_get "usage" w = Some (PDict usage)
    /\ dict_get "calls_remaining" usage = Some (PInt r)
    /\ calls_remaining built = Some r.
Proof.
  rewrite built_eq. unfold result; cbn.
  destruct (t =? "free")%string; cbn [andb]; [| discriminate].
  destruct (used >=? lim) eqn:Hb; [discriminate |].
  rewrite Z.geb_leb in Hb. apply Z.leb_gt in Hb.
  destruct (used >=? warning_threshold); [| discriminate].
  intros H. injection H as <-.
  do 2 eexists. split; [reflexivity |]. split; [reflexivity |].
  f_equal. lia.
Qed.

End Built.

Lemma blocked_iff_no_calls_remaining_witness :
  exists e,
    result (Usage.enforce_usage_limit Samples.stdout0 Samples.now0 "t1" "create"
              (Some (Samples.backend "free" 130 100)) [] 100 90) = Raises e.
Proof.
  apply (proj2 (blocked_iff_no_calls_remaining
                  Samples.stdout0 Samples.now0 "t1" "create"
                  (Samples.backend "free" 130 100)
                  (Samples.answer "free" 130 100) []
                  "t1" "free" Samples.ps0 Samples.pe0 130 100 100 90
                  ltac:(discriminate) eq_refl eq_refl eq_refl)).
  split; reflexivity.
Defined.

Lemma warning_reports_derived_remaining_witness :
  exists usage r,
    dict_get "calls_remaining" usage = Some (PInt r)
    /\ calls_remaining
         (UsageResponse_init "t1" "free" 95 100 Samples.ps0 Samples.pe0 None)
       = Some r.
Proof.
  destruct (warning_reports_derived_remaining
              Samples.stdout0 Samples.now0 "t1" "create"
              (Samples.backend "free" 95 100)
              (Samples.answer "free" 95 100) []
              "t1" "free" Samples.ps0 Samples.pe0 95 100 100 90
              ltac:(discriminate) eq_refl eq_refl eq_refl _ eq_refl)
    as (usage & r & _ & Hr & Hc).
  exists usage, r. split; assumption.
Defined.

(** ** Exceptions that pass through, at a sample input *)

Lemma enforce_usage_limit_propagates_witness :
  result (Usage.enforce_usage_limit Samples.stdout0 Samples.now0 "t1" "create"
            (Some (Samples.failing_backend
                     (SystemExiting "KeyboardInterrupt" ""))) [] 100 90)
  = Raises (SystemExiting "KeyboardInterrupt" "").
Proof.
  exact (enforce_usage_limit_propagates
           Samples.stdout0 Samples.now0 "t1" "create"
           (Samples.failing_backend (SystemExiting "KeyboardInterrupt" ""))
           (Samples.failure (SystemExiting "KeyboardInterrupt" "")) []
           (SystemExiting "KeyboardInterrupt" "")
           ltac:(discriminate) eq_refl eq_refl eq_refl 100 90
           (or_intror eq_refl)).
Defined.

(** ** [UsageResponse.__post_init__] *)

(** X15: [__post_init__] changes nothing but [calls_remaining], leaves a
    response that has one untouched, and never leaves the field [None];
    running it again changes nothing. *)
Theorem post_init_idempotent (self : UsageResponse) :
  __post_init__ (__post_init__ self) = __post_init__ self
  /\ (exists r, calls_remaining (__post_init__ self) = Some r)
  /\ tenant_id (__post_init__ self) = tenant_id self
  /\ tier (__post_init__ self) = tier self
  /\ calls_used (__post_init__ self) = calls_used self
  /\ calls_limit (__post_init__ self) = calls_limit self
  /\ period_start (__post_init__ self) = period_start self
  /\ period_end (__post_init__ self) = period_end self
  /\ forall r, calls_remaining self = Some r -> __post_init__ self = self.
Proof.
  unfold __post_init__.
  destruct (calls_remaining self) as [r |] eqn:Hr.
  - rewrite Hr. repeat split; eauto.
  - cbn. repeat split; eauto. intros r Hx. discriminate.
Qed.
